(** * vapi-squadless: the webhook responder of [main.go]

    A shallow embedding of [main.go] and the properties of its two flows:
    the provisioning of an assistant configuration for an inbound call
    ([getOrCreateAssistant], [createInitialAssistant]) and the recording of
    a caller-supplied description on a tool call ([handleVAPIWebhook]).

    Go values are modelled as follows.
    - [string] is [string]; a pointer that is only tested against [nil] and
      dereferenced ([*string], [*VAPICustomer], [*VAPIPhoneCall]) is an
      [option]; the [error] interface is [option string], [None] being [nil].
    - [map[string]interface{}] literals are association lists of [any], in
      the order of the source; [map[string]string] (the cache) is a [gmap].
    - The package-level variables [phoneToAssistantCache] and [oai] and the
      process environment are fields of [World]; every function that reads or
      writes them is a computation in the monad [M], which threads the world
      and stops at the first run-time panic.
    - Writes to standard output and to the logger are not part of the state;
      the evaluation of their arguments is, because it can panic. *)

From stdpp Require Import base option list strings gmap.

Open Scope string_scope.
Open Scope list_scope.

(** ** Values of dynamic type *)

(** [interface{}] restricted to the shapes the source builds: strings,
    slices ([[]interface{}], [[]string], [[]map[string]interface{}]) and
    maps with string keys ([map[string]interface{}], [fiber.Map]). *)
#[local] Unset Elimination Schemes.
Inductive any : Type :=
  | AString (s : string)
  | ASlice (l : list any)
  | AMap (m : list (string * any)).
#[local] Set Elimination Schemes.

(** Lookup of a key in a map literal. *)
Fixpoint field (k : string) (m : list (string * any)) : option any :=
  match m with
  | [] => None
  | (k', v) :: m' => if String.eqb k k' then Some v else field k m'
  end.

(** ** The types of the [go-openai] client that the source uses *)

Module openai.

Definition ChatMessageRoleSystem : string := "system".
Definition ChatMessageRoleUser : string := "user".

Record ChatCompletionMessage := {
  Role : string;
  Content : string
}.

Record ChatCompletionRequest := {
  Model : string;
  Messages : list ChatCompletionMessage
}.

Record ChatCompletionChoice := {
  Message : ChatCompletionMessage
}.

Record ChatCompletionResponse := {
  Choices : list ChatCompletionChoice
}.

(** The client: what [CreateChatCompletion] answers to a request, given the
    requests already sent.  A non-[nil] error is [Some]. *)
Record Client := {
  complete :
    list ChatCompletionRequest → ChatCompletionRequest →
    ChatCompletionResponse * option string
}.

End openai.

(** ** The structs of [main.go] *)

Module VAPIFunctionArguments.
Record t := { Assistant : option string }.
End VAPIFunctionArguments.

Module VAPIFunction.
Record t := {
  Name : string;
  Arguments : VAPIFunctionArguments.t
}.
End VAPIFunction.

Module VAPIToolCall.
Record t := {
  ID : string;
  Type_ : string;
  Function : VAPIFunction.t
}.
End VAPIToolCall.

Module VAPICustomer.
Record t := {
  Name : option string;
  Number : option string
}.
End VAPICustomer.

Module VAPIPhoneCall.
Record t := {
  ID : string;
  AssistantID : option string
}.
End VAPIPhoneCall.

Module VAPIWebhookMessage.
Record t := {
  Type_ : string;
  ToolCalls : list VAPIToolCall.t;
  Call : option VAPIPhoneCall.t;
  Customer : option VAPICustomer.t
}.
End VAPIWebhookMessage.

Module VAPIWebhookPayload.
Record t := { Message : VAPIWebhookMessage.t }.
End VAPIWebhookPayload.

Module VAPIAssistant.
Record t := {
  Name : string;
  Model : list (string * any);
  Voice : list (string * any);
  Transcriber : list (string * any);
  FirstMessage : option string;
  FirstMessageMode : option string
}.
End VAPIAssistant.

Module RequestAssistantResponse.
Record t := { Assistant : option VAPIAssistant.t }.
End RequestAssistantResponse.

(** ** The world and the monad of computations *)

Record World := {
  phoneToAssistantCache : gmap string string;
  oai : openai.Client;
  oaiRequests : list openai.ChatCompletionRequest;
  environ : gmap string string
}.

(** The world after [phoneToAssistantCache[id] = description], and after a
    request has gone to the text-generation service. *)
Definition stored (id description : string) (w : World) : World :=
  {| phoneToAssistantCache := <[id := description]> (phoneToAssistantCache w);
     oai := oai w;
     oaiRequests := oaiRequests w;
     environ := environ w |}.

Definition sent (request : openai.ChatCompletionRequest) (w : World) : World :=
  {| phoneToAssistantCache := phoneToAssistantCache w;
     oai := oai w;
     oaiRequests := oaiRequests w ++ [request];
     environ := environ w |}.

(** The run-time panics that the source can raise. *)
Inductive runtimeError : Type :=
  | IndexOutOfRange (index length : nat)
  | NilPointerDereference.

Inductive result (A : Type) : Type :=
  | Ret (a : A)
  | Panic (e : runtimeError).
Arguments Ret {A} a.
Arguments Panic {A} e.

Definition M (A : Type) : Type := World → World * result A.

#[global] Instance M_ret : MRet M := λ A a w, (w, Ret a).

#[global] Instance M_bind : MBind M := λ A B f m w,
  match m w with
  | (w', Ret a) => f a w'
  | (w', Panic e) => (w', Panic e)
  end.

Definition panic {A} (e : runtimeError) : M A := λ w, (w, Panic e).

(** [l[i]] on a slice. *)
Definition index {A} (l : list A) (i : nat) : M A :=
  match l !! i with
  | Some x => mret x
  | None => panic (IndexOutOfRange i (length l))
  end.

(** [p.f] or [*p] on a pointer. *)
Definition deref {A} (p : option A) : M A :=
  match p with
  | Some x => mret x
  | None => panic NilPointerDereference
  end.

(** [phoneToAssistantCache[id]] with the comma-ok form, and
    [phoneToAssistantCache[id] = description]. *)
Definition cacheGet (id : string) : M (option string) :=
  λ w, (w, Ret (phoneToAssistantCache w !! id)).

Definition cachePut (id description : string) : M unit :=
  λ w, (stored id description w, Ret tt).

(** [os.Getenv]: the empty string for an unset variable. *)
Definition Getenv (key : string) : M string :=
  λ w, (w, Ret (default "" (environ w !! key))).

(** [oai.CreateChatCompletion(ctx, request)]: the request is sent, and the
    pair of a response and an error comes back. *)
Definition CreateChatCompletion (request : openai.ChatCompletionRequest)
  : M (openai.ChatCompletionResponse * option string) :=
  λ w, (sent request w, Ret (openai.complete (oai w) (oaiRequests w) request)).

(** ** Prompt templates *)

Definition LF : string := String (Ascii.ascii_of_nat 10) EmptyString.
Definition TAB : string := String (Ascii.ascii_of_nat 9) EmptyString.

(** [fmt.Sprintf] on a format with a single verb [%s]: [before] and [after]
    are the text around the verb. *)
Definition Sprintf (before after arg : string) : string :=
  before +:+ arg +:+ after.

Definition systemInstruction : string :=
  "You are a prompt engineer. Generate a system prompt for an AI assistant based on this description. The prompt should be concise and clear.".

Definition transferInstructions (vapiPhoneNumber : string) : string :=
  Sprintf
    (LF +:+ TAB +:+ TAB +:+
     "For your first message, introduce yourself and state your purpose. Be concise and clear." +:+
     LF +:+ TAB +:+ TAB +:+
     "Then, the caller will describe an assistant that they want to speak to. Call the createAssistant tool with the description." +:+
     LF +:+ TAB +:+ TAB +:+
     "After the createAssistant tool call is successful, transfer the caller to ")
    ("." +:+ LF +:+ TAB +:+ TAB)
    vapiPhoneNumber.

Definition initialPrompt (phoneNumber : string) : string :=
  Sprintf
    ("You are a helpful assistant. Greet the caller and ask how you can help them today. They will tell you an agent that they want to speak to." +:+
     LF +:+ TAB +:+
     "After the createAssistant tool call is successful, transfer the caller to ")
    (". Don't transfer the call until the createAssistant tool call is successful." +:+
     LF +:+ TAB)
    phoneNumber.

(** ** The provisioner *)

Definition modelBlock (prompt phoneNumber : string) : list (string * any) :=
  [ ("model", AString "gpt-4o-mini");
    ("provider", AString "openai");
    ("messages",
      ASlice [ AMap [ ("role", AString "system"); ("content", AString prompt) ] ]);
    ("toolIds", ASlice [ AString "d137092e-0250-4151-abf0-205ff2b0a438" ]);
    ("tools",
      ASlice [ AMap [ ("type", AString "transferCall");
                      ("destinations",
                        ASlice [ AMap [ ("type", AString "number");
                                        ("number", AString phoneNumber) ] ]) ] ]) ].

Definition voiceBlock : list (string * any) :=
  [ ("model", AString "sonic-english");
    ("voiceId", AString "248be419-c632-4f23-adf1-5324ed7dbf1d");
    ("provider", AString "cartesia") ].

Definition transcriberBlock : list (string * any) :=
  [ ("model", AString "general");
    ("language", AString "en");
    ("provider", AString "deepgram") ].

(** [createInitialAssistant], lines 159-205. *)
Definition createInitialAssistant (phoneNumber : string) : VAPIAssistant.t :=
  let prompt := initialPrompt phoneNumber in
  let firstMessage := "Hello! How can I assist you today?" in
  let firstMessageMode := "assistant-speaks-first" in
  {| VAPIAssistant.Name := "AssistantGenerator";
     VAPIAssistant.Model := modelBlock prompt phoneNumber;
     VAPIAssistant.Voice := voiceBlock;
     VAPIAssistant.Transcriber := transcriberBlock;
     VAPIAssistant.FirstMessage := Some firstMessage;
     VAPIAssistant.FirstMessageMode := Some firstMessageMode |}.

(** The struct literal of lines 115-150. *)
Definition customAssistant (prompt vapiPhoneNumber : string) : VAPIAssistant.t :=
  let firstMessageMode := "assistant-speaks-first-with-model-generated-message" in
  {| VAPIAssistant.Name := "CustomAssistant";
     VAPIAssistant.Model := modelBlock prompt vapiPhoneNumber;
     VAPIAssistant.Voice := voiceBlock;
     VAPIAssistant.Transcriber := transcriberBlock;
     VAPIAssistant.FirstMessage := None;
     VAPIAssistant.FirstMessageMode := Some firstMessageMode |}.

(** [getOrCreateAssistant], lines 78-156.  The [Printf] of line 100 reads
    [response.Choices[0]] before [err] is tested. *)
Definition getOrCreateAssistant (callerPhoneNumber vapiPhoneNumber : string)
  : M VAPIAssistant.t :=
  cached ← cacheGet callerPhoneNumber;
  match cached with
  | Some description =>
      let oaiMessages :=
        [ {| openai.Role := openai.ChatMessageRoleSystem;
             openai.Content := systemInstruction |};
          {| openai.Role := openai.ChatMessageRoleUser;
             openai.Content := description |} ] in
      '(response, err) ← CreateChatCompletion
          {| openai.Model := "gpt-4o-mini"; openai.Messages := oaiMessages |};
      _ ← index (openai.Choices response) 0;
      match err with
      | Some _ => mret (createInitialAssistant vapiPhoneNumber)
      | None =>
          choice ← index (openai.Choices response) 0;
          let prompt :=
            openai.Content (openai.Message choice) +:+
            transferInstructions vapiPhoneNumber in
          mret (customAssistant prompt vapiPhoneNumber)
      end
  | None => mret (createInitialAssistant vapiPhoneNumber)
  end.

(** ** The webhook handler *)

(** What a response carries: the struct of an assistant request or a
    [fiber.Map], both serialised by [c.JSON], or plain text. *)
Inductive responseBody : Type :=
  | BodyAssistant (r : RequestAssistantResponse.t)
  | BodyMap (m : list (string * any))
  | BodyText (s : string).

Record Response := {
  StatusCode : nat;
  Body : option responseBody
}.

(** [utils.StatusMessage] of fiber on the statuses that the source sends;
    the table of the library has the other registered codes. *)
Definition StatusMessage (status : nat) : string :=
  if Nat.eqb status 200 then "OK"
  else if Nat.eqb status 400 then "Bad Request"
  else "".

(** [c.SendStatus(status)]: it sets the status and, no body having been
    written, sends the status message as the body.  [c.JSON(data)]: the
    status of a fresh context is 200. *)
Definition SendStatus (status : nat) : M Response :=
  mret {| StatusCode := status; Body := Some (BodyText (StatusMessage status)) |}.

Definition JSON (data : responseBody) : M Response :=
  mret {| StatusCode := 200; Body := Some data |}.

(** One iteration of the loop of lines 244-277: [Some] is the [return] of
    line 268, [None] is the end of the [switch] (by [break] or by falling
    out of it), after which the loop goes on. *)
Definition toolCallStep (payload : VAPIWebhookPayload.t)
    (toolCall : VAPIToolCall.t) : M (option Response) :=
  let message := VAPIWebhookPayload.Message payload in
  if String.eqb (VAPIFunction.Name (VAPIToolCall.Function toolCall)) "createAssistant"
  then
    match VAPIWebhookMessage.Customer message with
    | None => mret None
    | Some customer =>
        match VAPICustomer.Number customer with
        | None => mret None
        | Some phoneNumber =>
            match VAPIFunctionArguments.Assistant
                    (VAPIFunction.Arguments (VAPIToolCall.Function toolCall)) with
            | None => mret None
            | Some assistantDesc =>
                _ ← cachePut phoneNumber assistantDesc;
                r ← JSON (BodyMap
                       [ ("results",
                           ASlice [ AMap [ ("toolCallId", AString (VAPIToolCall.ID toolCall));
                                           ("result", AString "Assistant created successfully") ] ]) ]);
                mret (Some r)
            end
        end
    end
  else mret None.

(** [for _, toolCall := range payload.Message.ToolCalls]. *)
Fixpoint rangeToolCalls (payload : VAPIWebhookPayload.t)
    (toolCalls : list VAPIToolCall.t) : M (option Response) :=
  match toolCalls with
  | [] => mret None
  | toolCall :: rest =>
      returned ← toolCallStep payload toolCall;
      match returned with
      | Some r => mret (Some r)
      | None => rangeToolCalls payload rest
      end
  end.

(** [handleVAPIWebhook], lines 208-281.  [body] is what [c.BodyParser] makes
    of the request: [None] when it returns an error. *)
Definition handleVAPIWebhook (body : option VAPIWebhookPayload.t) : M Response :=
  vapiPhoneNumber ← Getenv "VAPI_PHONE_NUMBER";
  match body with
  | None => SendStatus 400
  | Some payload =>
      let message := VAPIWebhookPayload.Message payload in
      if String.eqb (VAPIWebhookMessage.Type_ message) "assistant-request" then
        let phoneNumber :=
          match VAPIWebhookMessage.Customer message with
          | Some customer =>
              match VAPICustomer.Number customer with
              | Some number => number
              | None => ""
              end
          | None => ""
          end in
        call ← deref (VAPIWebhookMessage.Call message);
        let _ := VAPIPhoneCall.ID call in
        assistant ← getOrCreateAssistant phoneNumber vapiPhoneNumber;
        JSON (BodyAssistant {| RequestAssistantResponse.Assistant := Some assistant |})
      else if String.eqb (VAPIWebhookMessage.Type_ message) "tool-calls" then
        returned ← rangeToolCalls payload (VAPIWebhookMessage.ToolCalls message);
        match returned with
        | Some r => mret r
        | None => SendStatus 200
        end
      else SendStatus 200
  end.

(** ** Reading a configuration and a response *)

Definition slice (v : option any) : list any :=
  match v with
  | Some (ASlice l) => l
  | _ => []
  end.

Definition text (v : option any) : option string :=
  match v with
  | Some (AString s) => Some s
  | _ => None
  end.

Definition attribute (k : string) (v : any) : option any :=
  match v with
  | AMap m => field k m
  | _ => None
  end.

(** The [tools] of the model block, the [type] of a tool, its
    [destinations] and the [number] of a destination. *)
Definition tools (a : VAPIAssistant.t) : list any :=
  slice (field "tools" (VAPIAssistant.Model a)).

Definition toolType (tool : any) : option string := text (attribute "type" tool).

Definition destinations (tool : any) : list any :=
  slice (attribute "destinations" tool).

Definition destinationNumber (destination : any) : option string :=
  text (attribute "number" destination).

(** The [messages] of the model block, as pairs of a role and a content. *)
Definition modelMessages (a : VAPIAssistant.t) : list (option string * option string) :=
  (λ m, (text (attribute "role" m), text (attribute "content" m)))
    <$> slice (field "messages" (VAPIAssistant.Model a)).

(** The entries of [results] in a response body, as pairs of a
    [toolCallId] and a [result]. *)
Definition resultEntries (r : Response) : list (option string * option string) :=
  match Body r with
  | Some (BodyMap m) =>
      (λ e, (text (attribute "toolCallId" e), text (attribute "result" e)))
        <$> slice (field "results" m)
  | _ => []
  end.

(** * Vocabulary of the properties *)

(** The request that [getOrCreateAssistant] builds from a cached
    description (lines 84-98). *)
Definition promptRequest (description : string) : openai.ChatCompletionRequest :=
  {| openai.Model := "gpt-4o-mini";
     openai.Messages :=
       [ {| openai.Role := "system"; openai.Content := systemInstruction |};
         {| openai.Role := "user"; openai.Content := description |} ] |}.

(** A configuration transfers to [number] alone: it has one tool, of type
    [transferCall], with one destination, whose number is [number]. *)
Definition transfersOnlyTo (number : string) (a : VAPIAssistant.t) : Prop :=
  ∃ tool destination,
    tools a = [tool] ∧
    toolType tool = Some "transferCall" ∧
    destinations tool = [destination] ∧
    destinationNumber destination = Some number.

(** The customer number of a message, when both the customer and its number
    are there: the test of lines 221 and 250. *)
Definition customerNumber (message : VAPIWebhookMessage.t) : option string :=
  VAPIWebhookMessage.Customer message ≫= VAPICustomer.Number.

(** A tool call that asks for [createAssistant] with a description. *)
Definition describes (toolCall : VAPIToolCall.t) (description : string) : Prop :=
  VAPIFunction.Name (VAPIToolCall.Function toolCall) = "createAssistant" ∧
  VAPIFunctionArguments.Assistant
    (VAPIFunction.Arguments (VAPIToolCall.Function toolCall)) = Some description.

(** A tool call that names another tool, or [createAssistant] without its
    [assistant] argument. *)
Definition passedOver (toolCall : VAPIToolCall.t) : Prop :=
  VAPIFunction.Name (VAPIToolCall.Function toolCall) = "createAssistant" →
  VAPIFunctionArguments.Assistant
    (VAPIFunction.Arguments (VAPIToolCall.Function toolCall)) = None.

(** The response of lines 268-275. *)
Definition acknowledgement (toolCallId : string) : Response :=
  {| StatusCode := 200;
     Body := Some (BodyMap
       [ ("results",
           ASlice [ AMap [ ("toolCallId", AString toolCallId);
                           ("result", AString "Assistant created successfully") ] ]) ]) |}.

(** ** Sample worlds and events *)

(** A service that is down: every call returns the zero response and an
    error, as [CreateChatCompletion] does on a transport error or on a
    status that is not a success. *)
Definition failingClient : openai.Client :=
  {| openai.complete := λ _ _,
       ({| openai.Choices := [] |}, Some "error, status code: 500") |}.

(** A service that answers every request with one fixed completion. *)
Definition answeringClient (completion : string) : openai.Client :=
  {| openai.complete := λ _ _,
       ({| openai.Choices :=
             [ {| openai.Message :=
                    {| openai.Role := "assistant"; openai.Content := completion |} |} ] |},
        None) |}.

Definition worldOf (cache : gmap string string) (client : openai.Client) : World :=
  {| phoneToAssistantCache := cache;
     oai := client;
     oaiRequests := [];
     environ := {[ "VAPI_PHONE_NUMBER" := "+15550009999" ]} |}.

Definition sampleCustomer : VAPICustomer.t :=
  {| VAPICustomer.Name := None; VAPICustomer.Number := Some "+15551230000" |}.

Definition toolCallOf (id name : string) (assistant : option string) : VAPIToolCall.t :=
  {| VAPIToolCall.ID := id;
     VAPIToolCall.Type_ := "function";
     VAPIToolCall.Function :=
       {| VAPIFunction.Name := name;
          VAPIFunction.Arguments := {| VAPIFunctionArguments.Assistant := assistant |} |} |}.

Definition toolCallsEvent (customer : option VAPICustomer.t)
    (toolCalls : list VAPIToolCall.t) : VAPIWebhookMessage.t :=
  {| VAPIWebhookMessage.Type_ := "tool-calls";
     VAPIWebhookMessage.ToolCalls := toolCalls;
     VAPIWebhookMessage.Call := None;
     VAPIWebhookMessage.Customer := customer |}.

(** An ["assistant-request"] event, and the same message under another
    customer. *)
Definition assistantRequestEvent (customer : option VAPICustomer.t)
    (call : option VAPIPhoneCall.t) : VAPIWebhookMessage.t :=
  {| VAPIWebhookMessage.Type_ := "assistant-request";
     VAPIWebhookMessage.ToolCalls := [];
     VAPIWebhookMessage.Call := call;
     VAPIWebhookMessage.Customer := customer |}.

Definition withCustomer (customer : option VAPICustomer.t)
    (message : VAPIWebhookMessage.t) : VAPIWebhookMessage.t :=
  {| VAPIWebhookMessage.Type_ := VAPIWebhookMessage.Type_ message;
     VAPIWebhookMessage.ToolCalls := VAPIWebhookMessage.ToolCalls message;
     VAPIWebhookMessage.Call := VAPIWebhookMessage.Call message;
     VAPIWebhookMessage.Customer := customer |}.

Definition sampleCall : VAPIPhoneCall.t :=
  {| VAPIPhoneCall.ID := "call-0001"; VAPIPhoneCall.AssistantID := None |}.

Definition customerOf (number : string) : VAPICustomer.t :=
  {| VAPICustomer.Name := None; VAPICustomer.Number := Some number |}.

(** A [createAssistant] event with one tool call. *)
Definition createAssistantEvent (number toolCallId description : string)
  : option VAPIWebhookPayload.t :=
  Some {| VAPIWebhookPayload.Message :=
            toolCallsEvent (Some (customerOf number))
              [toolCallOf toolCallId "createAssistant" (Some description)] |}.

(** A service that reports an error and still hands back a response with a
    choice, as a response body does whose decoding fails after the choices
    were read (a later field of the wrong type, for instance). *)
Definition partialClient (completion : string) : openai.Client :=
  {| openai.complete := λ _ _,
       ({| openai.Choices :=
             [ {| openai.Message :=
                    {| openai.Role := "assistant"; openai.Content := completion |} |} ] |},
        Some "json: cannot unmarshal string into Go struct field") |}.

(** A service that answers without an error and without a choice. *)
Definition emptyClient : openai.Client :=
  {| openai.complete := λ _ _, ({| openai.Choices := [] |}, None) |}.

(** The return number that the handler reads from the environment. *)
Definition returnNumber (w : World) : string :=
  default "" (environ w !! "VAPI_PHONE_NUMBER").

Ltac run := unfold mbind, M_bind, mret, M_ret, panic; simpl.

(** * Properties *)

(** ** Running the provisioner *)

Lemma getOrCreateAssistant_miss w caller number :
  phoneToAssistantCache w !! caller = None →
  getOrCreateAssistant caller number w = (w, Ret (createInitialAssistant number)).
Proof.
  intros Hmiss. unfold getOrCreateAssistant, cacheGet. run.
  now rewrite Hmiss.
Qed.

(** With a cached description the request goes out first; what follows
    depends on the answer. *)
Lemma getOrCreateAssistant_hit w caller number description :
  phoneToAssistantCache w !! caller = Some description →
  getOrCreateAssistant caller number w =
    (sent (promptRequest description) w,
     let '(response, err) :=
       openai.complete (oai w) (oaiRequests w) (promptRequest description) in
     match openai.Choices response with
     | [] => Panic (IndexOutOfRange 0 0)
     | choice :: _ =>
         match err with
         | Some _ => Ret (createInitialAssistant number)
         | None =>
             Ret (customAssistant
                    (openai.Content (openai.Message choice) +:+
                     transferInstructions number) number)
         end
     end).
Proof.
  intros Hhit. unfold getOrCreateAssistant, cacheGet, CreateChatCompletion. run.
  rewrite Hhit. fold (promptRequest description).
  destruct (openai.complete _ _ _) as [[choices] [e|]]; simpl;
    destruct choices as [|choice rest]; reflexivity.
Qed.

(** When the service reports an error and its response still holds a
    choice, the fallback of lines 102-105 is reached. *)
Lemma getOrCreateAssistant_error_with_choice w caller number description choice rest e :
  phoneToAssistantCache w !! caller = Some description →
  openai.complete (oai w) (oaiRequests w) (promptRequest description) =
    ({| openai.Choices := choice :: rest |}, Some e) →
  getOrCreateAssistant caller number w =
    (sent (promptRequest description) w, Ret (createInitialAssistant number)).
Proof.
  intros Hhit Hanswer. rewrite (getOrCreateAssistant_hit _ _ _ _ Hhit), Hanswer.
  reflexivity.
Qed.

(** When the response holds no choice, line 100 panics, whatever the
    error is. *)
Lemma getOrCreateAssistant_no_choice w caller number description err :
  phoneToAssistantCache w !! caller = Some description →
  openai.complete (oai w) (oaiRequests w) (promptRequest description) =
    ({| openai.Choices := [] |}, err) →
  getOrCreateAssistant caller number w =
    (sent (promptRequest description) w, Panic (IndexOutOfRange 0 0)).
Proof.
  intros Hhit Hanswer. rewrite (getOrCreateAssistant_hit _ _ _ _ Hhit), Hanswer.
  reflexivity.
Qed.

(** ** The provisioner: claims *)

(** C1, at the failing input: the caller ["+15551230000"] has the cached
    description ["a pirate"] and the text-generation service fails with an
    error and the zero response.  [getOrCreateAssistant] does not fall back
    to the Generator configuration: it panics with an index out of range at
    [response.Choices[0]], which line 100 reads before [err] is tested. *)
Theorem getOrCreateAssistant_service_error_panics :
  snd (getOrCreateAssistant "+15551230000" "+15550009999"
         (worldOf {[ "+15551230000" := "a pirate" ]} failingClient))
  = Panic (IndexOutOfRange 0 0).
Proof.
  erewrite getOrCreateAssistant_no_choice; [reflexivity | | reflexivity].
  apply lookup_singleton_eq.
Qed.

(** C3: for a caller identity with no entry in the cache,
    [getOrCreateAssistant] returns the Generator configuration, named
    ["AssistantGenerator"], whose first message is the fixed greeting and
    whose first-message mode is ["assistant-speaks-first"]; the world is left
    as it was. *)
Theorem getOrCreateAssistant_no_entry_generator w caller number :
  phoneToAssistantCache w !! caller = None →
  ∃ a,
    getOrCreateAssistant caller number w = (w, Ret a) ∧
    a = createInitialAssistant number ∧
    VAPIAssistant.Name a = "AssistantGenerator" ∧
    VAPIAssistant.FirstMessage a = Some "Hello! How can I assist you today?" ∧
    VAPIAssistant.FirstMessageMode a = Some "assistant-speaks-first".
Proof.
  intros Hmiss. exists (createInitialAssistant number).
  rewrite (getOrCreateAssistant_miss _ _ _ Hmiss). repeat split.
Qed.

Lemma getOrCreateAssistant_no_entry_generator_witness :
  ∃ a,
    getOrCreateAssistant "+15551230000" "+15550009999" (worldOf ∅ failingClient)
      = (worldOf ∅ failingClient, Ret a) ∧
    a = createInitialAssistant "+15550009999" ∧
    VAPIAssistant.Name a = "AssistantGenerator" ∧
    VAPIAssistant.FirstMessage a = Some "Hello! How can I assist you today?" ∧
    VAPIAssistant.FirstMessageMode a = Some "assistant-speaks-first".
Proof.
  apply (getOrCreateAssistant_no_entry_generator
           (worldOf ∅ failingClient) "+15551230000" "+15550009999").
  apply lookup_empty.
Defined.

(** C4: for a caller identity with a cache entry, [getOrCreateAssistant]
    sends exactly one request to the text-generation service: the requests
    sent grow by one, whose messages are a system turn with the fixed
    instruction followed by a user turn with the cached description. *)
Theorem getOrCreateAssistant_entry_one_request w caller number description :
  phoneToAssistantCache w !! caller = Some description →
  oaiRequests (fst (getOrCreateAssistant caller number w)) =
    (oaiRequests w ++
     [ {| openai.Model := "gpt-4o-mini";
          openai.Messages :=
            [ {| openai.Role := "system";
                 openai.Content :=
                   "You are a prompt engineer. Generate a system prompt for an AI assistant based on this description. The prompt should be concise and clear." |};
              {| openai.Role := "user"; openai.Content := description |} ] |} ])%list.
Proof.
  intros Hhit. rewrite (getOrCreateAssistant_hit _ _ _ _ Hhit). reflexivity.
Qed.

Lemma getOrCreateAssistant_entry_one_request_witness :
  oaiRequests
    (fst (getOrCreateAssistant "+15551230000" "+15550009999"
            (worldOf {[ "+15551230000" := "a pirate" ]} (answeringClient "You are a pirate."))))
  = ([] ++
     [ {| openai.Model := "gpt-4o-mini";
          openai.Messages :=
            [ {| openai.Role := "system";
                 openai.Content :=
                   "You are a prompt engineer. Generate a system prompt for an AI assistant based on this description. The prompt should be concise and clear." |};
              {| openai.Role := "user"; openai.Content := "a pirate" |} ] |} ])%list.
Proof.
  apply (getOrCreateAssistant_entry_one_request
           (worldOf {[ "+15551230000" := "a pirate" ]} (answeringClient "You are a pirate."))
           "+15551230000" "+15550009999" "a pirate").
  apply lookup_singleton_eq.
Defined.

(** C5: for a caller identity with a cache entry, when the call to the
    text-generation service succeeds (no error, and a response whose first
    choice carries the generated text), [getOrCreateAssistant] returns the
    Custom configuration: its only model message is a system message made of
    the generated text followed by the transfer instructions of lines
    108-112, which end with the return number and a full stop, its
    first-message mode is
    ["assistant-speaks-first-with-model-generated-message"], and it has no
    first-message text. *)
Theorem getOrCreateAssistant_entry_success_custom
    w caller number description choice rest :
  phoneToAssistantCache w !! caller = Some description →
  openai.complete (oai w) (oaiRequests w) (promptRequest description) =
    ({| openai.Choices := choice :: rest |}, None) →
  ∃ a,
    snd (getOrCreateAssistant caller number w) = Ret a ∧
    VAPIAssistant.Name a = "CustomAssistant" ∧
    modelMessages a =
      [ (Some "system",
         Some (openai.Content (openai.Message choice) +:+
               LF +:+ TAB +:+ TAB +:+
               "For your first message, introduce yourself and state your purpose. Be concise and clear." +:+
               LF +:+ TAB +:+ TAB +:+
               "Then, the caller will describe an assistant that they want to speak to. Call the createAssistant tool with the description." +:+
               LF +:+ TAB +:+ TAB +:+
               "After the createAssistant tool call is successful, transfer the caller to " +:+
               number +:+ "." +:+ LF +:+ TAB +:+ TAB)) ] ∧
    VAPIAssistant.FirstMessageMode a =
      Some "assistant-speaks-first-with-model-generated-message" ∧
    VAPIAssistant.FirstMessage a = None.
Proof.
  intros Hhit Hanswer.
  rewrite (getOrCreateAssistant_hit _ _ _ _ Hhit), Hanswer. simpl.
  eexists. split; [reflexivity|]. repeat split.
Qed.

Lemma getOrCreateAssistant_entry_success_custom_witness :
  ∃ a,
    snd (getOrCreateAssistant "+15551230000" "+15550009999"
           (worldOf {[ "+15551230000" := "a pirate" ]} (answeringClient "You are a pirate.")))
      = Ret a ∧
    VAPIAssistant.Name a = "CustomAssistant" ∧
    modelMessages a =
      [ (Some "system",
         Some ("You are a pirate." +:+
               LF +:+ TAB +:+ TAB +:+
               "For your first message, introduce yourself and state your purpose. Be concise and clear." +:+
               LF +:+ TAB +:+ TAB +:+
               "Then, the caller will describe an assistant that they want to speak to. Call the createAssistant tool with the description." +:+
               LF +:+ TAB +:+ TAB +:+
               "After the createAssistant tool call is successful, transfer the caller to " +:+
               "+15550009999" +:+ "." +:+ LF +:+ TAB +:+ TAB)) ] ∧
    VAPIAssistant.FirstMessageMode a =
      Some "assistant-speaks-first-with-model-generated-message" ∧
    VAPIAssistant.FirstMessage a = None.
Proof.
  apply (getOrCreateAssistant_entry_success_custom
           (worldOf {[ "+15551230000" := "a pirate" ]} (answeringClient "You are a pirate."))
           "+15551230000" "+15550009999" "a pirate"
           {| openai.Message :=
                {| openai.Role := "assistant"; openai.Content := "You are a pirate." |} |}
           []).
  - apply lookup_singleton_eq.
  - reflexivity.
Defined.

(** The transfer instructions end with the return number and a full stop,
    as the format of lines 108-112 has them. *)
Example transferInstructions_sample :
  transferInstructions "+15550009999" =
    LF +:+ TAB +:+ TAB +:+
    "For your first message, introduce yourself and state your purpose. Be concise and clear." +:+
    LF +:+ TAB +:+ TAB +:+
    "Then, the caller will describe an assistant that they want to speak to. Call the createAssistant tool with the description." +:+
    LF +:+ TAB +:+ TAB +:+
    "After the createAssistant tool call is successful, transfer the caller to +15550009999." +:+
    LF +:+ TAB +:+ TAB.
Proof. reflexivity. Qed.

Lemma modelBlock_transfersOnlyTo a prompt number :
  VAPIAssistant.Model a = modelBlock prompt number → transfersOnlyTo number a.
Proof.
  intros Hmodel. unfold transfersOnlyTo, tools. rewrite Hmodel.
  do 2 eexists. repeat split.
Qed.

(** C6: for every caller identity, return number and world, the
    configuration that [getOrCreateAssistant] returns, Generator or Custom,
    has a single [transferCall] tool whose single destination is the return
    number.  A configuration is returned in every case but one: a cached
    description whose request is answered with no choice. *)
Theorem getOrCreateAssistant_transfers_to_return_number w caller number :
  match snd (getOrCreateAssistant caller number w) with
  | Ret a => transfersOnlyTo number a
  | Panic _ =>
      ∃ description,
        phoneToAssistantCache w !! caller = Some description ∧
        openai.Choices
          (fst (openai.complete (oai w) (oaiRequests w) (promptRequest description))) = []
  end.
Proof.
  destruct (phoneToAssistantCache w !! caller) as [description|] eqn:Hcache.
  - rewrite (getOrCreateAssistant_hit _ _ _ _ Hcache). simpl.
    destruct (openai.complete _ _ _) as [[choices] err] eqn:Hanswer; simpl.
    destruct choices as [|choice rest].
    + exists description. split; [reflexivity|]. now rewrite Hanswer.
    + destruct err; eapply modelBlock_transfersOnlyTo; reflexivity.
  - rewrite (getOrCreateAssistant_miss _ _ _ Hcache). simpl.
    eapply modelBlock_transfersOnlyTo; reflexivity.
Qed.

(** ** The cache *)

(** C9: a write under an identity followed by a read of the same identity
    returns the description just written, the empty identity included; of
    two writes under one identity the read returns the second. *)
Theorem cache_put_get w id d d1 d2 :
  snd ((_ ← cachePut id d; cacheGet id) w) = Ret (Some d) ∧
  snd ((_ ← cachePut "" d; cacheGet "") w) = Ret (Some d) ∧
  snd ((_ ← cachePut id d1; _ ← cachePut id d2; cacheGet id) w) = Ret (Some d2).
Proof.
  unfold cachePut, cacheGet, stored. run.
  rewrite !lookup_insert_eq. repeat split.
Qed.

(** A write leaves the other identities as they were. *)
Lemma cache_put_get_other w id id' d :
  id ≠ id' →
  snd ((_ ← cachePut id d; cacheGet id') w) = Ret (phoneToAssistantCache w !! id').
Proof.
  intros Hne. unfold cachePut, cacheGet, stored. run.
  now rewrite lookup_insert_ne.
Qed.

(** ** Running the handler *)

Lemma toolCallStep_passedOver payload toolCall w :
  passedOver toolCall → toolCallStep payload toolCall w = (w, Ret None).
Proof.
  unfold passedOver, toolCallStep. intros Hpassed.
  destruct (String.eqb_spec
              (VAPIFunction.Name (VAPIToolCall.Function toolCall)) "createAssistant")
    as [Hname|Hname]; [|reflexivity].
  rewrite (Hpassed Hname).
  destruct (VAPIWebhookMessage.Customer _) as [customer|]; [|reflexivity].
  destruct (VAPICustomer.Number customer); reflexivity.
Qed.

Lemma toolCallStep_no_number payload toolCall w :
  customerNumber (VAPIWebhookPayload.Message payload) = None →
  toolCallStep payload toolCall w = (w, Ret None).
Proof.
  unfold customerNumber, toolCallStep. intros Hnone.
  destruct (String.eqb _ _); [|reflexivity].
  destruct (VAPIWebhookMessage.Customer _) as [customer|]; [|reflexivity].
  simpl in Hnone. now rewrite Hnone.
Qed.

Lemma toolCallStep_describes payload toolCall number description w :
  customerNumber (VAPIWebhookPayload.Message payload) = Some number →
  describes toolCall description →
  toolCallStep payload toolCall w =
    (stored number description w, Ret (Some (acknowledgement (VAPIToolCall.ID toolCall)))).
Proof.
  unfold customerNumber, describes, toolCallStep. intros Hnumber [Hname Hargument].
  rewrite Hname, Hargument. simpl.
  destruct (VAPIWebhookMessage.Customer _) as [customer|]; [|discriminate].
  simpl in Hnumber. now rewrite Hnumber.
Qed.

(** The loop goes past the calls that are passed over. *)
Lemma rangeToolCalls_passedOver payload pre rest w :
  Forall passedOver pre →
  rangeToolCalls payload (pre ++ rest) w = rangeToolCalls payload rest w.
Proof.
  induction 1 as [|toolCall pre Hpassed _ IH]; [reflexivity|].
  simpl. run. now rewrite (toolCallStep_passedOver _ _ _ Hpassed).
Qed.

Lemma rangeToolCalls_all_passedOver payload toolCalls w :
  Forall passedOver toolCalls → rangeToolCalls payload toolCalls w = (w, Ret None).
Proof.
  intros Hall. rewrite <- (app_nil_r toolCalls).
  now rewrite (rangeToolCalls_passedOver _ _ _ _ Hall).
Qed.

Lemma rangeToolCalls_no_number payload toolCalls w :
  customerNumber (VAPIWebhookPayload.Message payload) = None →
  rangeToolCalls payload toolCalls w = (w, Ret None).
Proof.
  intros Hnone. induction toolCalls as [|toolCall rest IH]; [reflexivity|].
  simpl. run. now rewrite (toolCallStep_no_number _ _ _ Hnone).
Qed.

(** The loop returns at the first call that describes an assistant. *)
Lemma rangeToolCalls_first payload pre toolCall post number description w :
  customerNumber (VAPIWebhookPayload.Message payload) = Some number →
  Forall passedOver pre →
  describes toolCall description →
  rangeToolCalls payload (pre ++ toolCall :: post) w =
    (stored number description w, Ret (Some (acknowledgement (VAPIToolCall.ID toolCall)))).
Proof.
  intros Hnumber Hpre Hcall. rewrite (rangeToolCalls_passedOver _ _ _ _ Hpre).
  simpl. run. now rewrite (toolCallStep_describes _ _ _ _ _ Hnumber Hcall).
Qed.

(** The handler on an event of type ["tool-calls"]. *)
Lemma handleVAPIWebhook_tool_calls payload w :
  VAPIWebhookMessage.Type_ (VAPIWebhookPayload.Message payload) = "tool-calls" →
  handleVAPIWebhook (Some payload) w =
    match rangeToolCalls payload
            (VAPIWebhookMessage.ToolCalls (VAPIWebhookPayload.Message payload)) w with
    | (w', Ret (Some r)) => (w', Ret r)
    | (w', Ret None) => (w', Ret {| StatusCode := 200; Body := Some (BodyText "OK") |})
    | (w', Panic e) => (w', Panic e)
    end.
Proof.
  intros Htype. unfold handleVAPIWebhook, Getenv. run. rewrite Htype. simpl.
  destruct (rangeToolCalls _ _ _) as [w' [[r|]|e]]; reflexivity.
Qed.

(** The handler on an event of type ["assistant-request"] without a call. *)
Lemma handleVAPIWebhook_assistant_request_no_call payload w :
  VAPIWebhookMessage.Type_ (VAPIWebhookPayload.Message payload) = "assistant-request" →
  VAPIWebhookMessage.Call (VAPIWebhookPayload.Message payload) = None →
  handleVAPIWebhook (Some payload) w = (w, Panic NilPointerDereference).
Proof.
  intros Htype Hcall. unfold handleVAPIWebhook, Getenv. run.
  now rewrite Htype, Hcall.
Qed.

(** With a call, the same event is answered with the configuration of the
    provisioner, under status 200. *)
Lemma handleVAPIWebhook_assistant_request payload call w :
  VAPIWebhookMessage.Type_ (VAPIWebhookPayload.Message payload) = "assistant-request" →
  VAPIWebhookMessage.Call (VAPIWebhookPayload.Message payload) = Some call →
  handleVAPIWebhook (Some payload) w =
    match getOrCreateAssistant
            (default "" (customerNumber (VAPIWebhookPayload.Message payload)))
            (default "" (environ w !! "VAPI_PHONE_NUMBER")) w with
    | (w', Ret a) =>
        (w', Ret {| StatusCode := 200;
                    Body := Some (BodyAssistant
                      {| RequestAssistantResponse.Assistant := Some a |}) |})
    | (w', Panic e) => (w', Panic e)
    end.
Proof.
  intros Htype Hcall. unfold handleVAPIWebhook, Getenv, customerNumber. run.
  rewrite Htype, Hcall. simpl.
  destruct (VAPIWebhookMessage.Customer _) as [[name [number|]]|]; simpl;
    destruct (getOrCreateAssistant _ _ w) as [w' [a|e]]; reflexivity.
Qed.

(** ** The handler: claims *)

(** C2, at the failing input: an ["assistant-request"] event that parses,
    has a customer number and no [call].  The handler does not answer with
    status 200: it panics with a nil pointer dereference at
    [payload.Message.Call.ID] (line 226), before the provisioner is called,
    and no response is written. *)
Theorem handleVAPIWebhook_assistant_request_without_call_panics w :
  handleVAPIWebhook
    (Some {| VAPIWebhookPayload.Message :=
               {| VAPIWebhookMessage.Type_ := "assistant-request";
                  VAPIWebhookMessage.ToolCalls := [];
                  VAPIWebhookMessage.Call := None;
                  VAPIWebhookMessage.Customer := Some sampleCustomer |} |}) w
  = (w, Panic NilPointerDereference).
Proof.
  apply handleVAPIWebhook_assistant_request_no_call.
  - reflexivity.
  - reflexivity.
Qed.

(** C7: for a ["tool-calls"] event with a customer number whose first tool
    call that names [createAssistant] with an [assistant] argument is
    [toolCall], the handler writes the description into the cache under the
    customer number and answers with status 200 and a body whose [results]
    hold one entry: the id of [toolCall] and the fixed success string. *)
Theorem handleVAPIWebhook_createAssistant
    w message customer number pre toolCall post description :
  VAPIWebhookMessage.Type_ message = "tool-calls" →
  VAPIWebhookMessage.Customer message = Some customer →
  VAPICustomer.Number customer = Some number →
  VAPIWebhookMessage.ToolCalls message = pre ++ toolCall :: post →
  Forall passedOver pre →
  describes toolCall description →
  ∃ w' r,
    handleVAPIWebhook (Some {| VAPIWebhookPayload.Message := message |}) w = (w', Ret r) ∧
    phoneToAssistantCache w' = <[number := description]> (phoneToAssistantCache w) ∧
    phoneToAssistantCache w' !! number = Some description ∧
    StatusCode r = 200 ∧
    Body r = Some (BodyMap
      [ ("results",
          ASlice [ AMap [ ("toolCallId", AString (VAPIToolCall.ID toolCall));
                          ("result", AString "Assistant created successfully") ] ]) ]) ∧
    resultEntries r =
      [ (Some (VAPIToolCall.ID toolCall), Some "Assistant created successfully") ].
Proof.
  intros Htype Hcustomer Hnumber Hcalls Hpre Hcall.
  rewrite handleVAPIWebhook_tool_calls by exact Htype. simpl. rewrite Hcalls.
  erewrite rangeToolCalls_first; [| | exact Hpre | exact Hcall].
  2: { unfold customerNumber. simpl. rewrite Hcustomer. exact Hnumber. }
  do 2 eexists. split; [reflexivity|]. simpl.
  rewrite lookup_insert_eq. repeat split.
Qed.

Lemma handleVAPIWebhook_createAssistant_witness :
  ∃ w' r,
    handleVAPIWebhook
      (Some {| VAPIWebhookPayload.Message :=
                 toolCallsEvent (Some sampleCustomer)
                   [toolCallOf "call_1" "createAssistant" (Some "a pirate")] |})
      (worldOf ∅ failingClient) = (w', Ret r) ∧
    phoneToAssistantCache w' = <["+15551230000" := "a pirate"]> ∅ ∧
    phoneToAssistantCache w' !! "+15551230000" = Some "a pirate" ∧
    StatusCode r = 200 ∧
    Body r = Some (BodyMap
      [ ("results",
          ASlice [ AMap [ ("toolCallId", AString "call_1");
                          ("result", AString "Assistant created successfully") ] ]) ]) ∧
    resultEntries r = [ (Some "call_1", Some "Assistant created successfully") ].
Proof.
  apply (handleVAPIWebhook_createAssistant
           (worldOf ∅ failingClient)
           (toolCallsEvent (Some sampleCustomer)
              [toolCallOf "call_1" "createAssistant" (Some "a pirate")])
           sampleCustomer "+15551230000" []
           (toolCallOf "call_1" "createAssistant" (Some "a pirate")) [] "a pirate").
  - reflexivity.
  - reflexivity.
  - reflexivity.
  - reflexivity.
  - apply Forall_nil_2.
  - split; reflexivity.
Defined.

(** C8: for a ["tool-calls"] event whose customer number is absent, or in
    which the [createAssistant] calls lack the [assistant] argument, the
    handler leaves the world, and so the cache, as it was and answers with
    status 200, the status text as its body and no result entry. *)
Theorem handleVAPIWebhook_createAssistant_missing_field w message :
  VAPIWebhookMessage.Type_ message = "tool-calls" →
  customerNumber message = None ∨
    Forall passedOver (VAPIWebhookMessage.ToolCalls message) →
  ∃ r,
    handleVAPIWebhook (Some {| VAPIWebhookPayload.Message := message |}) w = (w, Ret r) ∧
    StatusCode r = 200 ∧
    Body r = Some (BodyText "OK") ∧
    resultEntries r = [].
Proof.
  intros Htype Hmissing.
  rewrite handleVAPIWebhook_tool_calls by exact Htype. simpl.
  destruct Hmissing as [Hnone|Hall].
  - rewrite rangeToolCalls_no_number by exact Hnone.
    eexists. split; [reflexivity|]. repeat split.
  - rewrite rangeToolCalls_all_passedOver by exact Hall.
    eexists. split; [reflexivity|]. repeat split.
Qed.

Lemma handleVAPIWebhook_createAssistant_missing_field_witness :
  ∃ r,
    handleVAPIWebhook
      (Some {| VAPIWebhookPayload.Message :=
                 toolCallsEvent None
                   [toolCallOf "call_1" "createAssistant" (Some "a pirate")] |})
      (worldOf {[ "+15551230000" := "a ninja" ]} failingClient)
      = (worldOf {[ "+15551230000" := "a ninja" ]} failingClient, Ret r) ∧
    StatusCode r = 200 ∧
    Body r = Some (BodyText "OK") ∧
    resultEntries r = [].
Proof.
  apply (handleVAPIWebhook_createAssistant_missing_field
           (worldOf {[ "+15551230000" := "a ninja" ]} failingClient)
           (toolCallsEvent None
              [toolCallOf "call_1" "createAssistant" (Some "a pirate")])).
  - reflexivity.
  - left. reflexivity.
Defined.

(** The same with a customer number and a [createAssistant] call that has no
    [assistant] argument. *)
Example handleVAPIWebhook_missing_argument_sample :
  handleVAPIWebhook
    (Some {| VAPIWebhookPayload.Message :=
               toolCallsEvent (Some sampleCustomer)
                 [toolCallOf "call_1" "createAssistant" None] |})
    (worldOf ∅ failingClient)
  = (worldOf ∅ failingClient, Ret {| StatusCode := 200; Body := Some (BodyText "OK") |}).
Proof. reflexivity. Qed.

(** C10: in a ["tool-calls"] event with a customer number, with or without
    a call, let [toolCall] be the first tool call that names
    [createAssistant] with an [assistant] argument.  The handler does what it
    does on the event that holds [toolCall] alone, whatever the calls after
    [toolCall] are.  That call alone is executed: the cache afterwards is the
    cache before with the description of [toolCall] written under the
    customer number, and nothing else of the world has changed.  That call
    alone is acknowledged: the answer has status 200 and a body whose
    [results] hold one entry, the id of [toolCall] with the fixed success
    string. *)
Theorem handleVAPIWebhook_first_createAssistant_only
    w call customer number pre toolCall post post' description :
  VAPICustomer.Number customer = Some number →
  Forall passedOver pre →
  describes toolCall description →
  let handle toolCalls :=
    handleVAPIWebhook
      (Some {| VAPIWebhookPayload.Message :=
                 {| VAPIWebhookMessage.Type_ := "tool-calls";
                    VAPIWebhookMessage.ToolCalls := toolCalls;
                    VAPIWebhookMessage.Call := call;
                    VAPIWebhookMessage.Customer := Some customer |} |}) w in
  handle (pre ++ toolCall :: post) = handle [toolCall] ∧
  handle (pre ++ toolCall :: post) = handle (pre ++ toolCall :: post') ∧
  phoneToAssistantCache (fst (handle (pre ++ toolCall :: post))) =
    <[number := description]> (phoneToAssistantCache w) ∧
  oaiRequests (fst (handle (pre ++ toolCall :: post))) = oaiRequests w ∧
  environ (fst (handle (pre ++ toolCall :: post))) = environ w ∧
  oai (fst (handle (pre ++ toolCall :: post))) = oai w ∧
  snd (handle (pre ++ toolCall :: post)) =
    Ret {| StatusCode := 200;
           Body := Some (BodyMap
             [ ("results",
                 ASlice [ AMap [ ("toolCallId", AString (VAPIToolCall.ID toolCall));
                                 ("result", AString "Assistant created successfully") ] ]) ]) |} ∧
  (∀ r, snd (handle (pre ++ toolCall :: post)) = Ret r →
        resultEntries r =
          [ (Some (VAPIToolCall.ID toolCall), Some "Assistant created successfully") ]).
Proof.
  intros Hnumber Hpre Hcall handle.
  assert (Hrun : ∀ before after, Forall passedOver before →
            handle (before ++ toolCall :: after) =
              (stored number description w,
               Ret (acknowledgement (VAPIToolCall.ID toolCall)))).
  { intros before after Hbefore. unfold handle.
    rewrite handleVAPIWebhook_tool_calls by reflexivity. simpl.
    erewrite rangeToolCalls_first; [reflexivity | | exact Hbefore | exact Hcall].
    unfold customerNumber. simpl. exact Hnumber. }
  split; [|split].
  - rewrite (Hrun pre post Hpre). symmetry. exact (Hrun [] [] (Forall_nil_2 _)).
  - now rewrite (Hrun pre post Hpre), (Hrun pre post' Hpre).
  - rewrite (Hrun pre post Hpre). simpl. repeat split.
    intros r [= <-]. reflexivity.
Qed.

Lemma handleVAPIWebhook_first_createAssistant_only_witness :
  let toolCall := toolCallOf "call_2" "createAssistant" (Some "a pirate") in
  let pre := [ toolCallOf "call_0" "lookupWeather" (Some "a wizard");
               toolCallOf "call_1" "createAssistant" None ] in
  let post := [ toolCallOf "call_3" "createAssistant" (Some "a ninja") ] in
  let w := worldOf {[ "+15551230000" := "a cook" ]} failingClient in
  let handle toolCalls :=
    handleVAPIWebhook
      (Some {| VAPIWebhookPayload.Message :=
                 {| VAPIWebhookMessage.Type_ := "tool-calls";
                    VAPIWebhookMessage.ToolCalls := toolCalls;
                    VAPIWebhookMessage.Call := Some sampleCall;
                    VAPIWebhookMessage.Customer := Some sampleCustomer |} |}) w in
  handle (pre ++ toolCall :: post) = handle [toolCall] ∧
  handle (pre ++ toolCall :: post) = handle (pre ++ toolCall :: []) ∧
  phoneToAssistantCache (fst (handle (pre ++ toolCall :: post))) =
    <["+15551230000" := "a pirate"]> (phoneToAssistantCache w) ∧
  oaiRequests (fst (handle (pre ++ toolCall :: post))) = oaiRequests w ∧
  environ (fst (handle (pre ++ toolCall :: post))) = environ w ∧
  oai (fst (handle (pre ++ toolCall :: post))) = oai w ∧
  snd (handle (pre ++ toolCall :: post)) =
    Ret {| StatusCode := 200;
           Body := Some (BodyMap
             [ ("results",
                 ASlice [ AMap [ ("toolCallId", AString "call_2");
                                 ("result", AString "Assistant created successfully") ] ]) ]) |} ∧
  (∀ r, snd (handle (pre ++ toolCall :: post)) = Ret r →
        resultEntries r = [ (Some "call_2", Some "Assistant created successfully") ]).
Proof.
  apply (handleVAPIWebhook_first_createAssistant_only
           (worldOf {[ "+15551230000" := "a cook" ]} failingClient)
           (Some sampleCall) sampleCustomer "+15551230000"
           [ toolCallOf "call_0" "lookupWeather" (Some "a wizard");
             toolCallOf "call_1" "createAssistant" None ]
           (toolCallOf "call_2" "createAssistant" (Some "a pirate"))
           [ toolCallOf "call_3" "createAssistant" (Some "a ninja") ]
           [] "a pirate").
  - reflexivity.
  - apply Forall_cons_2; [intros Hname; discriminate Hname|].
    apply Forall_cons_2; [intros _; reflexivity|]. apply Forall_nil_2.
  - split; reflexivity.
Defined.

(** * Further properties of the provisioner *)

(** X1: [getOrCreateAssistant] reads the cache and never writes it: the
    cache, the environment and the client are the same after the call,
    whatever the outcome. *)
Theorem getOrCreateAssistant_keeps_cache w caller number :
  phoneToAssistantCache (fst (getOrCreateAssistant caller number w)) =
    phoneToAssistantCache w ∧
  environ (fst (getOrCreateAssistant caller number w)) = environ w ∧
  oai (fst (getOrCreateAssistant caller number w)) = oai w.
Proof.
  destruct (phoneToAssistantCache w !! caller) as [description|] eqn:Hcache.
  - rewrite (getOrCreateAssistant_hit _ _ _ _ Hcache). repeat split.
  - rewrite (getOrCreateAssistant_miss _ _ _ Hcache). repeat split.
Qed.

(** X2: the generated prompt is not kept: two calls in a row for a caller
    with a cached description send the same request twice. *)
Theorem getOrCreateAssistant_twice_two_requests w caller number description :
  phoneToAssistantCache w !! caller = Some description →
  let w1 := fst (getOrCreateAssistant caller number w) in
  let w2 := fst (getOrCreateAssistant caller number w1) in
  oaiRequests w2 =
    oaiRequests w ++ [promptRequest description; promptRequest description].
Proof.
  intros Hhit w1 w2.
  assert (Hw1 : w1 = sent (promptRequest description) w).
  { unfold w1. now rewrite (getOrCreateAssistant_hit _ _ _ _ Hhit). }
  assert (Hhit1 : phoneToAssistantCache w1 !! caller = Some description).
  { rewrite Hw1. exact Hhit. }
  unfold w2. rewrite (getOrCreateAssistant_hit _ _ _ _ Hhit1). simpl.
  rewrite Hw1. simpl. now rewrite <- app_assoc.
Qed.

Lemma getOrCreateAssistant_twice_two_requests_witness :
  let w := worldOf {[ "+15551230000" := "a pirate" ]} (answeringClient "You are a pirate.") in
  let w1 := fst (getOrCreateAssistant "+15551230000" "+15550009999" w) in
  let w2 := fst (getOrCreateAssistant "+15551230000" "+15550009999" w1) in
  oaiRequests w2 = oaiRequests w ++ [promptRequest "a pirate"; promptRequest "a pirate"].
Proof.
  apply (getOrCreateAssistant_twice_two_requests
           (worldOf {[ "+15551230000" := "a pirate" ]} (answeringClient "You are a pirate."))
           "+15551230000" "+15550009999" "a pirate").
  apply lookup_singleton_eq.
Defined.

(** X3: [getOrCreateAssistant] panics exactly when the caller has a cached
    description and the response to its request holds no choice, with or
    without an error; the panic is the index out of range of line 100. *)
Theorem getOrCreateAssistant_panics_iff w caller number e :
  snd (getOrCreateAssistant caller number w) = Panic e ↔
  e = IndexOutOfRange 0 0 ∧
  ∃ description,
    phoneToAssistantCache w !! caller = Some description ∧
    openai.Choices
      (fst (openai.complete (oai w) (oaiRequests w) (promptRequest description))) = [].
Proof.
  destruct (phoneToAssistantCache w !! caller) as [description|] eqn:Hcache.
  - rewrite (getOrCreateAssistant_hit _ _ _ _ Hcache). simpl.
    destruct (openai.complete _ _ _) as [[choices] err] eqn:Hanswer; simpl.
    destruct choices as [|choice rest].
    + split.
      * intros [= <-]. split; [reflexivity|].
        exists description. split; [reflexivity|]. now rewrite Hanswer.
      * intros [-> _]. reflexivity.
    + split.
      * destruct err; discriminate.
      * intros [_ (d & [= <-] & Hempty)]. rewrite Hanswer in Hempty. discriminate.
  - rewrite (getOrCreateAssistant_miss _ _ _ Hcache). simpl. split.
    + discriminate.
    + intros [_ (d & Hd & _)]. discriminate.
Qed.

(** A service that answers without an error and without a choice makes the
    provisioner panic as well. *)
Example getOrCreateAssistant_empty_answer_sample :
  snd (getOrCreateAssistant "+15551230000" "+15550009999"
         (worldOf {[ "+15551230000" := "a pirate" ]} emptyClient))
  = Panic (IndexOutOfRange 0 0).
Proof.
  erewrite getOrCreateAssistant_no_choice; [reflexivity | | reflexivity].
  apply lookup_singleton_eq.
Qed.

(** X4: when the service reports an error and its response still holds a
    choice, [getOrCreateAssistant] falls back: after its one request it
    returns the configuration of [createInitialAssistant], the one a caller
    without a cached description gets. *)
Theorem getOrCreateAssistant_error_fallback w caller number description response e :
  phoneToAssistantCache w !! caller = Some description →
  openai.complete (oai w) (oaiRequests w) (promptRequest description) =
    (response, Some e) →
  openai.Choices response ≠ [] →
  getOrCreateAssistant caller number w =
    (sent (promptRequest description) w, Ret (createInitialAssistant number)) ∧
  VAPIAssistant.Name (createInitialAssistant number) = "AssistantGenerator".
Proof.
  intros Hhit Hanswer Hchoice. split; [|reflexivity].
  destruct response as [[|choice rest]]; [now destruct Hchoice|].
  exact (getOrCreateAssistant_error_with_choice _ _ _ _ _ _ _ Hhit Hanswer).
Qed.

Lemma getOrCreateAssistant_error_fallback_witness :
  let w := worldOf {[ "+15551230000" := "a pirate" ]} (partialClient "You are") in
  getOrCreateAssistant "+15551230000" "+15550009999" w =
    (sent (promptRequest "a pirate") w, Ret (createInitialAssistant "+15550009999")) ∧
  VAPIAssistant.Name (createInitialAssistant "+15550009999") = "AssistantGenerator".
Proof.
  apply (getOrCreateAssistant_error_fallback
           (worldOf {[ "+15551230000" := "a pirate" ]} (partialClient "You are"))
           "+15551230000" "+15550009999" "a pirate"
           {| openai.Choices :=
                [ {| openai.Message :=
                       {| openai.Role := "assistant"; openai.Content := "You are" |} |} ] |}
           "json: cannot unmarshal string into Go struct field").
  - apply lookup_singleton_eq.
  - reflexivity.
  - discriminate.
Defined.

(** X5: every configuration that [getOrCreateAssistant] returns, Generator
    or Custom, has the same voice, the same transcriber, the same model,
    provider and tool identifier, one system message, and a first-message
    mode; the first-message text is there exactly for the Generator. *)
Theorem getOrCreateAssistant_fixed_blocks w caller number a :
  snd (getOrCreateAssistant caller number w) = Ret a →
  VAPIAssistant.Voice a =
    [ ("model", AString "sonic-english");
      ("voiceId", AString "248be419-c632-4f23-adf1-5324ed7dbf1d");
      ("provider", AString "cartesia") ] ∧
  VAPIAssistant.Transcriber a =
    [ ("model", AString "general");
      ("language", AString "en");
      ("provider", AString "deepgram") ] ∧
  field "model" (VAPIAssistant.Model a) = Some (AString "gpt-4o-mini") ∧
  field "provider" (VAPIAssistant.Model a) = Some (AString "openai") ∧
  field "toolIds" (VAPIAssistant.Model a) =
    Some (ASlice [AString "d137092e-0250-4151-abf0-205ff2b0a438"]) ∧
  (∃ prompt, modelMessages a = [(Some "system", Some prompt)]) ∧
  is_Some (VAPIAssistant.FirstMessageMode a) ∧
  (is_Some (VAPIAssistant.FirstMessage a) ↔ VAPIAssistant.Name a = "AssistantGenerator").
Proof.
  intros Hreturned.
  assert (Hshape : a = createInitialAssistant number ∨
                   ∃ prompt, a = customAssistant prompt number).
  { revert Hreturned.
    destruct (phoneToAssistantCache w !! caller) as [description|] eqn:Hcache.
    - rewrite (getOrCreateAssistant_hit _ _ _ _ Hcache). simpl.
      destruct (openai.complete _ _ _) as [[choices] err]; simpl.
      destruct choices as [|choice rest]; [discriminate|].
      destruct err; intros [= <-]; [now left | right; eexists; reflexivity].
    - rewrite (getOrCreateAssistant_miss _ _ _ Hcache). simpl.
      intros [= <-]. now left. }
  destruct Hshape as [-> | [prompt ->]];
    do 5 (split; [reflexivity|]);
    (split; [eexists; reflexivity|]); (split; [eexists; reflexivity|]); simpl.
  - split; [reflexivity | intros _; eexists; reflexivity].
  - split; [intros [x Hx]; discriminate | discriminate].
Qed.

Lemma getOrCreateAssistant_fixed_blocks_witness :
  let a := customAssistant ("You are a pirate." +:+ transferInstructions "+15550009999")
             "+15550009999" in
  VAPIAssistant.Voice a =
    [ ("model", AString "sonic-english");
      ("voiceId", AString "248be419-c632-4f23-adf1-5324ed7dbf1d");
      ("provider", AString "cartesia") ] ∧
  VAPIAssistant.Transcriber a =
    [ ("model", AString "general");
      ("language", AString "en");
      ("provider", AString "deepgram") ] ∧
  field "model" (VAPIAssistant.Model a) = Some (AString "gpt-4o-mini") ∧
  field "provider" (VAPIAssistant.Model a) = Some (AString "openai") ∧
  field "toolIds" (VAPIAssistant.Model a) =
    Some (ASlice [AString "d137092e-0250-4151-abf0-205ff2b0a438"]) ∧
  (∃ prompt, modelMessages a = [(Some "system", Some prompt)]) ∧
  is_Some (VAPIAssistant.FirstMessageMode a) ∧
  (is_Some (VAPIAssistant.FirstMessage a) ↔ VAPIAssistant.Name a = "AssistantGenerator").
Proof.
  apply (getOrCreateAssistant_fixed_blocks
           (worldOf {[ "+15551230000" := "a pirate" ]} (answeringClient "You are a pirate."))
           "+15551230000" "+15550009999").
  erewrite getOrCreateAssistant_hit by apply lookup_singleton_eq.
  reflexivity.
Defined.

(** * Further properties of the handler *)

(** A list of tool calls either is passed over as a whole or has a first
    call that describes an assistant. *)
Lemma toolCalls_split (toolCalls : list VAPIToolCall.t) :
  Forall passedOver toolCalls ∨
  ∃ pre toolCall post description,
    toolCalls = pre ++ toolCall :: post ∧
    Forall passedOver pre ∧
    describes toolCall description.
Proof.
  induction toolCalls as [|toolCall rest IH]; [left; constructor|].
  destruct (String.eqb_spec
              (VAPIFunction.Name (VAPIToolCall.Function toolCall)) "createAssistant")
    as [Hname|Hname].
  - destruct (VAPIFunctionArguments.Assistant
                (VAPIFunction.Arguments (VAPIToolCall.Function toolCall)))
      as [description|] eqn:Hargument.
    + right. exists [], toolCall, rest, description.
      split; [reflexivity|]. split; [constructor|]. now split.
    + assert (Hpassed : passedOver toolCall) by (intros _; exact Hargument).
      destruct IH as [Hall | (pre & tc & post & d & -> & Hpre & Hcall)].
      * left. now constructor.
      * right. exists (toolCall :: pre), tc, post, d.
        split; [reflexivity|]. split; [now constructor | exact Hcall].
  - assert (Hpassed : passedOver toolCall) by (intros Heq; now destruct Hname).
    destruct IH as [Hall | (pre & tc & post & d & -> & Hpre & Hcall)].
    + left. now constructor.
    + right. exists (toolCall :: pre), tc, post, d.
      split; [reflexivity|]. split; [now constructor | exact Hcall].
Qed.

Lemma handleVAPIWebhook_other_type payload w :
  VAPIWebhookMessage.Type_ (VAPIWebhookPayload.Message payload) ≠ "assistant-request" →
  VAPIWebhookMessage.Type_ (VAPIWebhookPayload.Message payload) ≠ "tool-calls" →
  handleVAPIWebhook (Some payload) w = (w, Ret {| StatusCode := 200; Body := Some (BodyText "OK") |}).
Proof.
  intros Hrequest Htools. unfold handleVAPIWebhook, Getenv. run.
  apply String.eqb_neq in Hrequest, Htools. now rewrite Hrequest, Htools.
Qed.

(** The two outcomes of a ["tool-calls"] event. *)
Lemma handleVAPIWebhook_tool_calls_outcome_aux w message :
  VAPIWebhookMessage.Type_ message = "tool-calls" →
  handleVAPIWebhook (Some {| VAPIWebhookPayload.Message := message |}) w =
    (w, Ret {| StatusCode := 200; Body := Some (BodyText "OK") |}) ∨
  ∃ number description toolCallId,
    customerNumber message = Some number ∧
    handleVAPIWebhook (Some {| VAPIWebhookPayload.Message := message |}) w =
      (stored number description w, Ret (acknowledgement toolCallId)).
Proof.
  intros Htype. rewrite handleVAPIWebhook_tool_calls by exact Htype. simpl.
  destruct (customerNumber message) as [number|] eqn:Hnumber.
  - destruct (toolCalls_split (VAPIWebhookMessage.ToolCalls message))
      as [Hall | (pre & toolCall & post & description & Hcalls & Hpre & Hcall)].
    + left. now rewrite rangeToolCalls_all_passedOver.
    + right. exists number, description, (VAPIToolCall.ID toolCall).
      split; [reflexivity|]. rewrite Hcalls. now erewrite rangeToolCalls_first.
  - left. now rewrite rangeToolCalls_no_number.
Qed.

(** X6: on every ["tool-calls"] event the handler returns, and in one of two
    ways.  Either it leaves the world as it was and answers with status 200
    and the status text [OK] as its body.  Or the customer number is there:
    the cache afterwards is the cache before with the description of the
    first [createAssistant] call that has one written under that number, the
    rest of the world is as it was, and the answer is status 200 with one
    result entry for that call.  It never panics and never contacts the
    service. *)
Theorem handleVAPIWebhook_tool_calls_outcome w message :
  VAPIWebhookMessage.Type_ message = "tool-calls" →
  handleVAPIWebhook (Some {| VAPIWebhookPayload.Message := message |}) w =
    (w, Ret {| StatusCode := 200; Body := Some (BodyText "OK") |}) ∨
  ∃ number pre toolCall post description w',
    customerNumber message = Some number ∧
    VAPIWebhookMessage.ToolCalls message = pre ++ toolCall :: post ∧
    Forall passedOver pre ∧
    describes toolCall description ∧
    handleVAPIWebhook (Some {| VAPIWebhookPayload.Message := message |}) w =
      (w', Ret {| StatusCode := 200;
                  Body := Some (BodyMap
                    [ ("results",
                        ASlice [ AMap [ ("toolCallId", AString (VAPIToolCall.ID toolCall));
                                        ("result", AString "Assistant created successfully") ] ]) ]) |}) ∧
    phoneToAssistantCache w' = <[number := description]> (phoneToAssistantCache w) ∧
    oaiRequests w' = oaiRequests w ∧
    environ w' = environ w ∧
    oai w' = oai w.
Proof.
  intros Htype. rewrite handleVAPIWebhook_tool_calls by exact Htype. simpl.
  destruct (customerNumber message) as [number|] eqn:Hnumber.
  - destruct (toolCalls_split (VAPIWebhookMessage.ToolCalls message))
      as [Hall | (pre & toolCall & post & description & Hcalls & Hpre & Hcall)].
    + left. now rewrite rangeToolCalls_all_passedOver.
    + right. exists number, pre, toolCall, post, description, (stored number description w).
      repeat (split; [assumption || reflexivity|]).
      split; [|repeat split].
      rewrite Hcalls. now erewrite rangeToolCalls_first.
  - left. now rewrite rangeToolCalls_no_number.
Qed.

Lemma handleVAPIWebhook_tool_calls_outcome_witness :
  let message :=
    toolCallsEvent (Some sampleCustomer)
      [ toolCallOf "call_1" "createAssistant" None;
        toolCallOf "call_2" "createAssistant" (Some "a pirate") ] in
  let w := worldOf ∅ failingClient in
  handleVAPIWebhook (Some {| VAPIWebhookPayload.Message := message |}) w =
    (w, Ret {| StatusCode := 200; Body := Some (BodyText "OK") |}) ∨
  ∃ number pre toolCall post description w',
    customerNumber message = Some number ∧
    VAPIWebhookMessage.ToolCalls message = pre ++ toolCall :: post ∧
    Forall passedOver pre ∧
    describes toolCall description ∧
    handleVAPIWebhook (Some {| VAPIWebhookPayload.Message := message |}) w =
      (w', Ret {| StatusCode := 200;
                  Body := Some (BodyMap
                    [ ("results",
                        ASlice [ AMap [ ("toolCallId", AString (VAPIToolCall.ID toolCall));
                                        ("result", AString "Assistant created successfully") ] ]) ]) |}) ∧
    phoneToAssistantCache w' = <[number := description]> (phoneToAssistantCache w) ∧
    oaiRequests w' = oaiRequests w ∧
    environ w' = environ w ∧
    oai w' = oai w.
Proof.
  apply (handleVAPIWebhook_tool_calls_outcome
           (worldOf ∅ failingClient)
           (toolCallsEvent (Some sampleCustomer)
              [ toolCallOf "call_1" "createAssistant" None;
                toolCallOf "call_2" "createAssistant" (Some "a pirate") ])).
  reflexivity.
Defined.

(** X7: an event whose type is neither ["assistant-request"] nor
    ["tool-calls"] is answered with status 200 and the status text [OK] as
    its body, without any result entry, and the world is left as it was,
    whatever tool calls, call and customer the event carries. *)
Theorem handleVAPIWebhook_unknown_type w message :
  VAPIWebhookMessage.Type_ message ≠ "assistant-request" →
  VAPIWebhookMessage.Type_ message ≠ "tool-calls" →
  ∃ r,
    handleVAPIWebhook (Some {| VAPIWebhookPayload.Message := message |}) w = (w, Ret r) ∧
    StatusCode r = 200 ∧
    Body r = Some (BodyText "OK") ∧
    resultEntries r = [].
Proof.
  intros Hrequest Htools. eexists. split.
  - now apply handleVAPIWebhook_other_type.
  - repeat split.
Qed.

Lemma handleVAPIWebhook_unknown_type_witness :
  let message :=
    {| VAPIWebhookMessage.Type_ := "status-update";
       VAPIWebhookMessage.ToolCalls :=
         [toolCallOf "call_1" "createAssistant" (Some "a pirate")];
       VAPIWebhookMessage.Call := None;
       VAPIWebhookMessage.Customer := Some sampleCustomer |} in
  ∃ r,
    handleVAPIWebhook (Some {| VAPIWebhookPayload.Message := message |})
      (worldOf ∅ failingClient) = (worldOf ∅ failingClient, Ret r) ∧
    StatusCode r = 200 ∧
    Body r = Some (BodyText "OK") ∧
    resultEntries r = [].
Proof.
  apply (handleVAPIWebhook_unknown_type
           (worldOf ∅ failingClient)
           {| VAPIWebhookMessage.Type_ := "status-update";
              VAPIWebhookMessage.ToolCalls :=
                [toolCallOf "call_1" "createAssistant" (Some "a pirate")];
              VAPIWebhookMessage.Call := None;
              VAPIWebhookMessage.Customer := Some sampleCustomer |}).
  - discriminate.
  - discriminate.
Defined.

(** X8: an ["assistant-request"] event with a call is answered, when the
    provisioner returns, with status 200 and a body that holds a
    configuration transferring to the value of [VAPI_PHONE_NUMBER] alone,
    which is the empty string when the variable is unset; the only panic
    left is the index out of range of the provisioner. *)
Theorem handleVAPIWebhook_assistant_request_response w message call :
  VAPIWebhookMessage.Type_ message = "assistant-request" →
  VAPIWebhookMessage.Call message = Some call →
  match snd (handleVAPIWebhook (Some {| VAPIWebhookPayload.Message := message |}) w) with
  | Ret r =>
      StatusCode r = 200 ∧
      ∃ a,
        Body r = Some (BodyAssistant {| RequestAssistantResponse.Assistant := Some a |}) ∧
        transfersOnlyTo (default "" (environ w !! "VAPI_PHONE_NUMBER")) a
  | Panic e => e = IndexOutOfRange 0 0
  end.
Proof.
  intros Htype Hcall.
  rewrite (handleVAPIWebhook_assistant_request _ call) by assumption.
  set (caller := default "" _). set (number := default "" _).
  pose proof (getOrCreateAssistant_hit w caller number) as Hhit.
  pose proof (getOrCreateAssistant_miss w caller number) as Hmiss.
  destruct (phoneToAssistantCache w !! caller) as [description|].
  - rewrite (Hhit description eq_refl). clear Hhit Hmiss. simpl.
    destruct (openai.complete _ _ _) as [[choices] err]; simpl.
    destruct choices as [|choice rest]; [reflexivity|].
    destruct err; simpl; (split; [reflexivity|]); eexists; (split; [reflexivity|]);
      eapply modelBlock_transfersOnlyTo; reflexivity.
  - rewrite (Hmiss eq_refl). simpl. split; [reflexivity|].
    eexists. split; [reflexivity|]. eapply modelBlock_transfersOnlyTo; reflexivity.
Qed.

Lemma handleVAPIWebhook_assistant_request_response_witness :
  let w :=
    {| phoneToAssistantCache := ∅; oai := failingClient;
       oaiRequests := []; environ := ∅ |} in
  match snd (handleVAPIWebhook
               (Some {| VAPIWebhookPayload.Message :=
                          assistantRequestEvent (Some sampleCustomer) (Some sampleCall) |}) w) with
  | Ret r =>
      StatusCode r = 200 ∧
      ∃ a,
        Body r = Some (BodyAssistant {| RequestAssistantResponse.Assistant := Some a |}) ∧
        transfersOnlyTo (default "" (environ w !! "VAPI_PHONE_NUMBER")) a
  | Panic e => e = IndexOutOfRange 0 0
  end.
Proof.
  apply (handleVAPIWebhook_assistant_request_response
           {| phoneToAssistantCache := ∅; oai := failingClient;
              oaiRequests := []; environ := ∅ |}
           (assistantRequestEvent (Some sampleCustomer) (Some sampleCall))
           sampleCall).
  - reflexivity.
  - reflexivity.
Defined.

(** X9: a caller without a customer number is served under the empty
    identity: an ["assistant-request"] event whose customer or customer
    number is absent is handled as the same event with the customer number
    [""], so it is given whatever description is cached under [""]. *)
Theorem handleVAPIWebhook_anonymous_caller w message :
  VAPIWebhookMessage.Type_ message = "assistant-request" →
  customerNumber message = None →
  handleVAPIWebhook (Some {| VAPIWebhookPayload.Message := message |}) w =
  handleVAPIWebhook
    (Some {| VAPIWebhookPayload.Message := withCustomer (Some (customerOf "")) message |}) w.
Proof.
  intros Htype Hnone.
  destruct (VAPIWebhookMessage.Call message) as [call|] eqn:Hcall.
  - rewrite (handleVAPIWebhook_assistant_request _ call) by assumption.
    rewrite (handleVAPIWebhook_assistant_request _ call) by assumption.
    simpl. now rewrite Hnone.
  - rewrite !handleVAPIWebhook_assistant_request_no_call by assumption.
    reflexivity.
Qed.

Lemma handleVAPIWebhook_anonymous_caller_witness :
  let w := worldOf {[ "" := "a pirate" ]} (answeringClient "You are a pirate.") in
  handleVAPIWebhook
    (Some {| VAPIWebhookPayload.Message := assistantRequestEvent None (Some sampleCall) |}) w =
  handleVAPIWebhook
    (Some {| VAPIWebhookPayload.Message :=
               withCustomer (Some (customerOf ""))
                 (assistantRequestEvent None (Some sampleCall)) |}) w.
Proof.
  apply (handleVAPIWebhook_anonymous_caller
           (worldOf {[ "" := "a pirate" ]} (answeringClient "You are a pirate."))
           (assistantRequestEvent None (Some sampleCall))).
  - reflexivity.
  - reflexivity.
Defined.

Lemma handleVAPIWebhook_createAssistantEvent number toolCallId description w :
  handleVAPIWebhook (createAssistantEvent number toolCallId description) w =
    (stored number description w, Ret (acknowledgement toolCallId)).
Proof. reflexivity. Qed.

(** X10: the two flows compose.  After a [createAssistant] event for a
    number, an ["assistant-request"] event from that number sends one
    request carrying the description just stored; when the service answers
    it without an error and with a choice, the response is the Custom
    configuration made of the generated text, the transfer instructions and
    the return number of the environment. *)
Theorem createAssistant_then_assistant_request
    w number toolCallId description call choice rest :
  let w1 := fst (handleVAPIWebhook (createAssistantEvent number toolCallId description) w) in
  openai.complete (oai w) (oaiRequests w) (promptRequest description) =
    ({| openai.Choices := choice :: rest |}, None) →
  handleVAPIWebhook
    (Some {| VAPIWebhookPayload.Message :=
               assistantRequestEvent (Some (customerOf number)) (Some call) |}) w1 =
    (sent (promptRequest description) (stored number description w),
     Ret {| StatusCode := 200;
            Body := Some (BodyAssistant
              {| RequestAssistantResponse.Assistant :=
                   Some (customAssistant
                           (openai.Content (openai.Message choice) +:+
                            transferInstructions (returnNumber w))
                           (returnNumber w)) |}) |}).
Proof.
  intros w1 Hanswer. unfold w1.
  rewrite handleVAPIWebhook_createAssistantEvent. simpl.
  rewrite (handleVAPIWebhook_assistant_request _ call) by reflexivity. simpl.
  rewrite (getOrCreateAssistant_hit _ _ _ description) by apply lookup_insert_eq.
  simpl. rewrite Hanswer. reflexivity.
Qed.

Lemma createAssistant_then_assistant_request_witness :
  let w := worldOf ∅ (answeringClient "You are a pirate.") in
  let w1 := fst (handleVAPIWebhook (createAssistantEvent "+15551230000" "call_1" "a pirate") w) in
  handleVAPIWebhook
    (Some {| VAPIWebhookPayload.Message :=
               assistantRequestEvent (Some (customerOf "+15551230000")) (Some sampleCall) |}) w1 =
    (sent (promptRequest "a pirate") (stored "+15551230000" "a pirate" w),
     Ret {| StatusCode := 200;
            Body := Some (BodyAssistant
              {| RequestAssistantResponse.Assistant :=
                   Some (customAssistant
                           ("You are a pirate." +:+ transferInstructions (returnNumber w))
                           (returnNumber w)) |}) |}).
Proof.
  apply (createAssistant_then_assistant_request
           (worldOf ∅ (answeringClient "You are a pirate."))
           "+15551230000" "call_1" "a pirate" sampleCall
           {| openai.Message :=
                {| openai.Role := "assistant"; openai.Content := "You are a pirate." |} |}
           []).
  reflexivity.
Defined.

(** X11: of two [createAssistant] events for one number the second wins:
    the world after both is the world after the second alone, whatever the
    tool-call ids; handling the same event twice is handling it once. *)
Theorem createAssistant_twice_last_wins w number id1 d1 id2 d2 :
  fst (handleVAPIWebhook (createAssistantEvent number id2 d2)
         (fst (handleVAPIWebhook (createAssistantEvent number id1 d1) w))) =
  fst (handleVAPIWebhook (createAssistantEvent number id2 d2) w).
Proof.
  rewrite !handleVAPIWebhook_createAssistantEvent. simpl.
  unfold stored. simpl. now rewrite insert_insert_eq.
Qed.

(** X12: [createAssistant] events for two different numbers commute: the
    world is the same whichever is handled first. *)
Theorem createAssistant_distinct_numbers_commute w number1 id1 d1 number2 id2 d2 :
  number1 ≠ number2 →
  fst (handleVAPIWebhook (createAssistantEvent number2 id2 d2)
         (fst (handleVAPIWebhook (createAssistantEvent number1 id1 d1) w))) =
  fst (handleVAPIWebhook (createAssistantEvent number1 id1 d1)
         (fst (handleVAPIWebhook (createAssistantEvent number2 id2 d2) w))).
Proof.
  intros Hne. rewrite !handleVAPIWebhook_createAssistantEvent. simpl.
  unfold stored. simpl. f_equal. now apply insert_insert_ne.
Qed.

Lemma createAssistant_distinct_numbers_commute_witness :
  let w := worldOf ∅ failingClient in
  fst (handleVAPIWebhook (createAssistantEvent "+15551230002" "call_2" "a ninja")
         (fst (handleVAPIWebhook (createAssistantEvent "+15551230001" "call_1" "a pirate") w))) =
  fst (handleVAPIWebhook (createAssistantEvent "+15551230001" "call_1" "a pirate")
         (fst (handleVAPIWebhook (createAssistantEvent "+15551230002" "call_2" "a ninja") w))).
Proof.
  apply (createAssistant_distinct_numbers_commute
           (worldOf ∅ failingClient)
           "+15551230001" "call_1" "a pirate" "+15551230002" "call_2" "a ninja").
  discriminate.
Defined.

(** What one request does to the world: nothing, one write to the cache
    under the customer number (a ["tool-calls"] event), or one request to the
    service for the description cached under the caller (an
    ["assistant-request"] event). *)
Lemma handleVAPIWebhook_world body w :
  fst (handleVAPIWebhook body w) = w ∨
  (∃ payload number description,
     body = Some payload ∧
     VAPIWebhookMessage.Type_ (VAPIWebhookPayload.Message payload) = "tool-calls" ∧
     customerNumber (VAPIWebhookPayload.Message payload) = Some number ∧
     fst (handleVAPIWebhook body w) = stored number description w) ∨
  (∃ payload description,
     body = Some payload ∧
     VAPIWebhookMessage.Type_ (VAPIWebhookPayload.Message payload) = "assistant-request" ∧
     phoneToAssistantCache w !!
       default "" (customerNumber (VAPIWebhookPayload.Message payload)) = Some description ∧
     fst (handleVAPIWebhook body w) = sent (promptRequest description) w).
Proof.
  destruct body as [[message]|]; [|left; reflexivity].
  destruct (String.eqb_spec (VAPIWebhookMessage.Type_ message) "assistant-request")
    as [Hrequest|Hrequest].
  - destruct (VAPIWebhookMessage.Call message) as [call|] eqn:Hcall.
    + rewrite (handleVAPIWebhook_assistant_request _ call) by assumption. simpl.
      set (caller := default "" _). set (number := default "" _).
      destruct (phoneToAssistantCache w !! caller) as [description|] eqn:Hcache.
      * right. right. exists {| VAPIWebhookPayload.Message := message |}, description.
        repeat (split; [assumption || reflexivity|]).
        rewrite (getOrCreateAssistant_hit _ _ _ _ Hcache).
        destruct (openai.complete _ _ _) as [[[|choice rest]] [e|]]; reflexivity.
      * left. now rewrite (getOrCreateAssistant_miss _ _ _ Hcache).
    + left. now rewrite handleVAPIWebhook_assistant_request_no_call.
  - destruct (String.eqb_spec (VAPIWebhookMessage.Type_ message) "tool-calls")
      as [Htools|Htools].
    + destruct (handleVAPIWebhook_tool_calls_outcome_aux w message Htools)
        as [Hsame | (number & description & toolCallId & Hnumber & Hrun)].
      * left. now rewrite Hsame.
      * right. left. exists {| VAPIWebhookPayload.Message := message |}, number, description.
        repeat (split; [assumption || reflexivity|]). now rewrite Hrun.
    + left. now rewrite handleVAPIWebhook_other_type.
Qed.

(** X13: the handler never removes a cache entry and writes under no
    identity but the customer number of the event: an identity that has a
    description keeps one, and an identity that is not the customer number
    of the request keeps the very description it had. *)
Theorem handleVAPIWebhook_cache_grows body w id :
  (is_Some (phoneToAssistantCache w !! id) →
   is_Some (phoneToAssistantCache (fst (handleVAPIWebhook body w)) !! id)) ∧
  ((∀ payload, body = Some payload →
      customerNumber (VAPIWebhookPayload.Message payload) ≠ Some id) →
   phoneToAssistantCache (fst (handleVAPIWebhook body w)) !! id =
     phoneToAssistantCache w !! id).
Proof.
  destruct (handleVAPIWebhook_world body w)
    as [-> | [(payload & number & description & Hbody & _ & Hnumber & ->)
             | (payload & description & _ & _ & _ & ->)]].
  - split; [tauto | reflexivity].
  - simpl. split.
    + intros Hsome. rewrite lookup_insert_is_Some.
      destruct (decide (number = id)); [now left | now right].
    + intros Hother. apply lookup_insert_ne. intros ->.
      exact (Hother payload Hbody Hnumber).
  - split; [tauto | reflexivity].
Qed.

(** X14: the handler answers 400 exactly when the body does not parse and
    200 in every other case in which it answers; it panics on
    ["assistant-request"] events only. *)
Theorem handleVAPIWebhook_status body w :
  match snd (handleVAPIWebhook body w) with
  | Ret r =>
      StatusCode r = match body with Some _ => 200 | None => 400 end
  | Panic _ =>
      ∃ payload,
        body = Some payload ∧
        VAPIWebhookMessage.Type_ (VAPIWebhookPayload.Message payload) = "assistant-request"
  end.
Proof.
  destruct body as [[message]|]; [|reflexivity].
  destruct (String.eqb_spec (VAPIWebhookMessage.Type_ message) "assistant-request")
    as [Hrequest|Hrequest].
  - destruct (VAPIWebhookMessage.Call message) as [call|] eqn:Hcall.
    + rewrite (handleVAPIWebhook_assistant_request _ call) by assumption. simpl.
      destruct (getOrCreateAssistant _ _ w) as [w' [a|e]]; simpl;
        [reflexivity | eexists; split; [reflexivity | exact Hrequest]].
    + rewrite handleVAPIWebhook_assistant_request_no_call by assumption. simpl.
      eexists; split; [reflexivity | exact Hrequest].
  - destruct (String.eqb_spec (VAPIWebhookMessage.Type_ message) "tool-calls")
      as [Htools|Htools].
    + destruct (handleVAPIWebhook_tool_calls_outcome_aux w message Htools)
        as [-> | (number & description & toolCallId & _ & ->)]; reflexivity.
    + now rewrite handleVAPIWebhook_other_type.
Qed.

(** X15: the service is contacted by ["assistant-request"] events only, and
    once at most per event: the requests sent are those sent before,
    followed by nothing or by the one request for the description cached
    under the caller; the environment and the client never change. *)
Theorem handleVAPIWebhook_requests body w :
  environ (fst (handleVAPIWebhook body w)) = environ w ∧
  oai (fst (handleVAPIWebhook body w)) = oai w ∧
  (oaiRequests (fst (handleVAPIWebhook body w)) = oaiRequests w ∨
   ∃ payload description,
     body = Some payload ∧
     VAPIWebhookMessage.Type_ (VAPIWebhookPayload.Message payload) = "assistant-request" ∧
     phoneToAssistantCache w !!
       default "" (customerNumber (VAPIWebhookPayload.Message payload)) = Some description ∧
     oaiRequests (fst (handleVAPIWebhook body w)) =
       oaiRequests w ++ [promptRequest description]).
Proof.
  destruct (handleVAPIWebhook_world body w)
    as [-> | [(payload & number & description & _ & _ & _ & ->)
             | (payload & description & Hbody & Htype & Hcache & ->)]].
  - repeat split. now left.
  - repeat split. now left.
  - repeat split. right. exists payload, description. repeat split; assumption.
Qed.
